(** * Bat-Sight: convert_yolov8_to_coreml.py

    A shallow embedding of the interactive conversion script
    [convert_yolov8_to_coreml.py] and the properties of its control flow.

    The script has no algorithmic core: it prints, reads two answers from
    standard input, runs [pip] through [os.system], and calls the model
    constructor and the [export] method of the ultralytics library.  What
    can be verified is the glue: which external calls are made, with which
    arguments, in which order, what every path prints and what it returns.

    The embedding therefore keeps
    - the console, standard input and the working directory as explicit
      state;
    - the external world (the installed packages, [pip], the ultralytics
      library) as a record of oracles over which every theorem quantifies;
    - Python's three ways of leaving a block (falling off its end,
      [return], an exception) as the three constructors of [completion],
      so that [try]/[except], early [return] and the implicit [None] of a
      function body that ends without [return] are derived from the shape
      of the source and not written by hand. *)

From Stdlib Require Import String Ascii List ZArith Bool Lia.
Import ListNotations.
Open Scope string_scope.

(** ** Python values and exceptions *)

(** The three values the functions of the script return. *)
Inductive pyval : Type :=
| PyTrue
| PyFalse
| PyNone.

(** Truth value of an object as [if success:] tests it. *)
Definition truthy (v : pyval) : bool :=
  match v with
  | PyTrue => true
  | PyFalse | PyNone => false
  end.

(** Exception classes, as far as the [except] clauses of the script tell
    them apart.  [ImportError] stands for the class and its subclasses
    ([ModuleNotFoundError]); [OtherException] for every other subclass of
    [Exception]; [KeyboardInterrupt] and [SystemExit] derive from
    [BaseException] only. *)
Inductive exn_class : Type :=
| ImportError
| EOFError
| FileNotFoundError
| OtherException
| KeyboardInterrupt
| SystemExit.

Record exn : Type := mkExn { exn_cls : exn_class; exn_msg : string }.

(** The two class patterns used by the [except] clauses of the script. *)
Inductive except_clause : Type :=
| ExceptImportError
| ExceptException.

Definition is_ImportError (c : exn_class) : bool :=
  match c with
  | ImportError => true
  | _ => false
  end.

Definition is_Exception (c : exn_class) : bool :=
  match c with
  | KeyboardInterrupt | SystemExit => false
  | _ => true
  end.

(** [isinstance(e, cls)] for the class named by the clause. *)
Definition clause_matches (c : except_clause) (e : exn) : bool :=
  match c with
  | ExceptImportError => is_ImportError (exn_cls e)
  | ExceptException => is_Exception (exn_cls e)
  end.

(** ** Strings *)

(** The line feed written [\n] in the source. *)
Definition LF : string := String (ascii_of_nat 10) EmptyString.

(** [s * n] on strings. *)
Fixpoint str_mul (s : string) (n : nat) : string :=
  match n with
  | O => ""
  | S k => s ++ str_mul s k
  end.

(** [str.lower] on the ASCII range: [A]..[Z] are mapped to [a]..[z] and
    every other byte is kept.  Outside ASCII Python's [lower] follows
    Unicode; no non-ASCII character lowercases to one of the letters the
    script compares with, so the difference is not observable through
    [choice in ['n', 's', 'm', 'l', 'x']]. *)
Definition lower_ascii (c : ascii) : ascii :=
  let n := nat_of_ascii c in
  if andb (Nat.leb 65 n) (Nat.leb n 90) then ascii_of_nat (n + 32) else c.

Fixpoint lower (s : string) : string :=
  match s with
  | EmptyString => EmptyString
  | String c r => String (lower_ascii c) (lower r)
  end.

(** [x in l] for a list of strings. *)
Definition str_in (x : string) (l : list string) : bool :=
  existsb (String.eqb x) l.

(** ** Console text *)

(** A printed line.  Literal text is kept as the source has it; the two
    formatted values that depend on the platform are kept symbolic:
    [str(model_path.absolute())] and the [:.1f] rendering of
    [st_size / (1024*1024)], a floating-point division. *)
Inductive piece : Type :=
| Lit (s : string)
| AbsolutePath (p : string)
| MiB_1f (st_size : Z).

Definition text : Type := list piece.

(** ** The export call *)

(** Keyword arguments of [model.export]. *)
Record export_kwargs : Type := mkKwargs {
  format : string;
  imgsz : Z;
  simplify : bool;
  nms : bool;
  int8 : bool;
  half : bool;
  device : string
}.

(** A model object, identified by the weights file it was built from. *)
Record yolo_model : Type := mkModel { weights : string }.

(** ** State and the external world *)

(** The working directory: a relative path is mapped to the [st_size] of
    the entry, when there is one. *)
Definition Files : Type := string -> option Z.

Record World : Type := mkWorld {
  stdin : list string;
  files : Files
}.

(** Result of an external call that returns nothing of interest. *)
Inductive ext_result : Type :=
| Done
| Failed (e : exn).

(** The world outside the script.  Each oracle sees the current files;
    those that can write return the files they leave behind (also when
    they fail). *)
Record Env : Type := mkEnv {
  ext_import_ultralytics : Files -> ext_result;
  ext_from_ultralytics_import_YOLO : Files -> ext_result;
  ext_os_system : string -> Files -> Files;
  ext_YOLO : string -> Files -> ext_result * Files;
  ext_export : yolo_model -> export_kwargs -> Files -> ext_result * Files
}.

(** The functions of the script. *)
Inductive func : Type :=
| f_install_requirements
| f_download_and_convert_yolov8
| f_convert_different_sizes
| f_main.

(** What a run does, in order. *)
Inductive event : Type :=
| Enter (f : func)
| Print (t : text)
| Prompt (p : string)
| OsSystem (cmd : string)
| ImportUltralytics
| FromUltralyticsImportYOLO
| YoloLoad (w : string)
| YoloExport (m : yolo_model) (kw : export_kwargs)
| PathExists (p : string)
| PathStat (p : string).

(** ** The statement monad *)

(** How a block ends: it runs to its end, it executes [return v], or it
    raises. *)
Inductive completion (A : Type) : Type :=
| Normal (a : A)
| Returning (v : pyval)
| Raising (e : exn).

Arguments Normal {A} a.
Arguments Returning {A} v.
Arguments Raising {A} e.

Record Run (A : Type) : Type := mkRun {
  result : completion A;
  output : list event;
  final : World
}.

Arguments mkRun {A} result output final.
Arguments result {A} r.
Arguments output {A} r.
Arguments final {A} r.

Definition M (A : Type) : Type := World -> Run A.

Definition ret {A : Type} (a : A) : M A :=
  fun w => mkRun (Normal a) [] w.

Definition bind {A B : Type} (m : M A) (k : A -> M B) : M B :=
  fun w =>
    match m w with
    | mkRun (Normal a) o w1 =>
        match k a w1 with
        | mkRun c o' w2 => mkRun c (o ++ o')%list w2
        end
    | mkRun (Returning v) o w1 => mkRun (Returning v) o w1
    | mkRun (Raising e) o w1 => mkRun (Raising e) o w1
    end.

Declare Scope py_scope.
Delimit Scope py_scope with py.
Notation "x <- m ;; k" := (bind m (fun x => k))
  (at level 100, m at next level, right associativity) : py_scope.
Notation "m ;; k" := (bind m (fun _ => k))
  (at level 100, right associativity) : py_scope.
Open Scope py_scope.

(** [pass]: the empty block. *)
Definition skip : M unit := ret tt.

(** [return v] *)
Definition return_ {A : Type} (v : pyval) : M A :=
  fun w => mkRun (Returning v) [] w.

(** [raise e] *)
Definition raise {A : Type} (e : exn) : M A :=
  fun w => mkRun (Raising e) [] w.

Definition emit (ev : event) : M unit :=
  fun w => mkRun (Normal tt) [ev] w.

(** First [except] clause whose class matches, as Python selects it. *)
Fixpoint select_handler {A : Type} (hs : list (except_clause * (exn -> M A)))
    (e : exn) : option (M A) :=
  match hs with
  | [] => None
  | (c, h) :: rest =>
      if clause_matches c e then Some (h e) else select_handler rest e
  end.

(** [try: body except C1 as e: h1 except C2 as e: h2].  A [return] inside
    the body leaves the statement; an exception no clause matches goes
    on. *)
Definition try_ {A : Type} (body : M A)
    (hs : list (except_clause * (exn -> M A))) : M A :=
  fun w =>
    match body w with
    | mkRun (Raising e) o w1 =>
        match select_handler hs e with
        | Some h =>
            match h w1 with
            | mkRun c o' w2 => mkRun c (o ++ o')%list w2
            end
        | None => mkRun (Raising e) o w1
        end
    | r => r
    end.

(** [def f(): body], called: a body that runs to its end returns [None]. *)
Definition def (f : func) (body : M unit) : M pyval :=
  fun w =>
    match body w with
    | mkRun (Normal _) o w1 => mkRun (Normal PyNone) (Enter f :: o) w1
    | mkRun (Returning v) o w1 => mkRun (Normal v) (Enter f :: o) w1
    | mkRun (Raising e) o w1 => mkRun (Raising e) (Enter f :: o) w1
    end.

(** [for x in l: body x] *)
Fixpoint for_ {A : Type} (l : list A) (body : A -> M unit) : M unit :=
  match l with
  | [] => skip
  | x :: rest => body x ;; for_ rest body
  end.

(** ** Built-ins and library calls *)

(** [print(t)], on a console that can show the text of the script. *)
Definition print (t : text) : M unit := emit (Print t).

(** [input(prompt)]: the prompt is written, one line is consumed; at end
    of input Python raises [EOFError].  The lines of [stdin] are lines
    that could be decoded. *)
Definition input (prompt : string) : M string :=
  fun w =>
    match stdin w with
    | [] =>
        mkRun (Raising (mkExn EOFError "EOF when reading a line"))
              [Prompt prompt] w
    | l :: rest => mkRun (Normal l) [Prompt prompt] (mkWorld rest (files w))
    end.

(** [Path(p).exists()] *)
Definition path_exists (p : string) : M bool :=
  fun w =>
    mkRun (Normal match files w p with Some _ => true | None => false end)
          [PathExists p] w.

(** [Path(p).stat().st_size] *)
Definition path_stat_st_size (p : string) : M Z :=
  fun w =>
    match files w p with
    | Some n => mkRun (Normal n) [PathStat p] w
    | None =>
        mkRun (Raising (mkExn FileNotFoundError p)) [PathStat p] w
    end.

Section Script.

Variable env : Env.

Definition lift_ext (r : ext_result) : completion unit :=
  match r with
  | Done => Normal tt
  | Failed e => Raising e
  end.

(** [os.system(cmd)]; the exit status is dropped by the caller. *)
Definition os_system (cmd : string) : M unit :=
  fun w =>
    mkRun (Normal tt) [OsSystem cmd]
          (mkWorld (stdin w) (ext_os_system env cmd (files w))).

(** [import ultralytics]; what the package may write while it is
    imported is not followed. *)
Definition import_ultralytics : M unit :=
  fun w =>
    mkRun (lift_ext (ext_import_ultralytics env (files w)))
          [ImportUltralytics] w.

(** [from ultralytics import YOLO] *)
Definition from_ultralytics_import_YOLO : M unit :=
  fun w =>
    mkRun (lift_ext (ext_from_ultralytics_import_YOLO env (files w)))
          [FromUltralyticsImportYOLO] w.

(** [YOLO(w)] *)
Definition YOLO (wt : string) : M yolo_model :=
  fun w =>
    match ext_YOLO env wt (files w) with
    | (Done, fs) => mkRun (Normal (mkModel wt)) [YoloLoad wt] (mkWorld (stdin w) fs)
    | (Failed e, fs) => mkRun (Raising e) [YoloLoad wt] (mkWorld (stdin w) fs)
    end.

(** [model.export(...)] *)
Definition export (m : yolo_model) (kw : export_kwargs) : M unit :=
  fun w =>
    match ext_export env m kw (files w) with
    | (r, fs) => mkRun (lift_ext r) [YoloExport m kw] (mkWorld (stdin w) fs)
    end.

(** ** The script *)

Definition install_requirements : M pyval :=
  def f_install_requirements (
    print [Lit "Installing required packages..."] ;;
    os_system "pip install ultralytics coremltools" ;;
    print [Lit "✅ Requirements installed successfully"]).

Definition download_and_convert_yolov8 : M pyval :=
  def f_download_and_convert_yolov8 (
    try_ (
      from_ultralytics_import_YOLO ;;
      print [Lit "🚀 Starting YOLOv8 to Core ML conversion..."] ;;
      print [Lit "📥 Downloading YOLOv8n model..."] ;;
      model <- YOLO "yolov8n.pt" ;;
      print [Lit "🔄 Converting to Core ML format..."] ;;
      export model
        {| format := "coreml"; imgsz := 640; simplify := true; nms := true;
           int8 := true; half := true; device := "cpu" |} ;;
      print [Lit "✅ YOLOv8n Core ML model created successfully!"] ;;
      let model_path := "yolov8n.mlpackage" in
      found <- path_exists model_path ;;
      if found then
        print [Lit "📁 Model saved as: "; AbsolutePath model_path] ;;
        st_size <- path_stat_st_size model_path ;;
        print [Lit "📊 Model size: "; MiB_1f st_size; Lit " MB"] ;;
        print [Lit (LF ++ "📱 To add to your BatSight project:")] ;;
        print [Lit "1. Drag yolov8n.mlpackage into your Xcode project"] ;;
        print [Lit "2. Make sure 'Add to target' is checked for BatSight"] ;;
        print [Lit "3. The app will automatically use YOLOv8 when available"] ;;
        return_ PyTrue
      else
        print [Lit "❌ Model file not found after conversion"] ;;
        return_ PyFalse)
    [ (ExceptImportError, fun e =>
         print [Lit "❌ Import error: "; Lit (exn_msg e)] ;;
         print [Lit "Please run: pip install ultralytics coremltools"] ;;
         return_ PyFalse);
      (ExceptException, fun e =>
         print [Lit "❌ Conversion error: "; Lit (exn_msg e)] ;;
         return_ PyFalse) ]).

(** The dictionary [models]; iteration follows insertion order. *)
Definition models : list (string * string) :=
  [ ("yolov8n", "Nano (fastest, smallest)");
    ("yolov8s", "Small (balanced)");
    ("yolov8m", "Medium (more accurate)");
    ("yolov8l", "Large (very accurate)");
    ("yolov8x", "Extra Large (most accurate)") ].

Definition convert_different_sizes : M pyval :=
  def f_convert_different_sizes (
    print [Lit (LF ++ "📋 Available YOLOv8 model sizes:")] ;;
    for_ models (fun '(model_name, description) =>
      print [Lit ("  • " ++ model_name ++ ": " ++ description)]) ;;
    answer <- input (LF ++ "Which model size would you like to convert? (n/s/m/l/x): ") ;;
    let choice := lower answer in
    if str_in choice ["n"; "s"; "m"; "l"; "x"] then
      let model_name := "yolov8" ++ choice in
      try_ (
        from_ultralytics_import_YOLO ;;
        print [Lit ("🔄 Converting " ++ model_name ++ "...")] ;;
        model <- YOLO (model_name ++ ".pt") ;;
        export model
          {| format := "coreml"; imgsz := 640; simplify := true; nms := true;
             int8 := true; half := true; device := "cpu" |} ;;
        let model_path := model_name ++ ".mlpackage" in
        found <- path_exists model_path ;;
        if found then
          print [Lit ("✅ " ++ model_name ++ ".mlpackage created successfully!")] ;;
          st_size <- path_stat_st_size model_path ;;
          print [Lit "📊 Size: "; MiB_1f st_size; Lit " MB"] ;;
          return_ PyTrue
        else
          skip)
      [ (ExceptException, fun e =>
           print [Lit ("❌ Error converting " ++ model_name ++ ": "); Lit (exn_msg e)] ;;
           return_ PyFalse) ]
    else
      print [Lit "❌ Invalid choice"] ;;
      return_ PyFalse).

Definition main : M pyval :=
  def f_main (
    print [Lit "🦇 BatSight YOLOv8 Core ML Converter"] ;;
    print [Lit (str_mul "=" 40)] ;;
    try_ (
      import_ultralytics ;;
      print [Lit "✅ Ultralytics already installed"])
    [ (ExceptImportError, fun _ =>
         _ <- install_requirements ;; skip) ] ;;
    print [Lit (LF ++ "What would you like to do?")] ;;
    print [Lit "1. Convert YOLOv8n (recommended for mobile)"] ;;
    print [Lit "2. Choose a different model size"] ;;
    print [Lit "3. Exit"] ;;
    choice <- input (LF ++ "Enter your choice (1-3): ") ;;
    success <-
      (if String.eqb choice "1" then download_and_convert_yolov8
       else if String.eqb choice "2" then convert_different_sizes
       else if String.eqb choice "3" then
         print [Lit "👋 Goodbye!"] ;;
         return_ PyNone
       else
         print [Lit "❌ Invalid choice"] ;;
         return_ PyNone) ;;
    if truthy success then
      print [Lit (LF ++ "🎉 Conversion completed successfully!")] ;;
      print [Lit "Your BatSight app is ready to use YOLOv8!"]
    else
      print [Lit (LF ++ "❌ Conversion failed. Check the error messages above.")]).

End Script.

(** ** Observations on a run *)

Definition is_export (ev : event) : bool :=
  match ev with
  | YoloExport _ _ => true
  | _ => false
  end.

Definition is_load (ev : event) : bool :=
  match ev with
  | YoloLoad _ => true
  | _ => false
  end.

Definition is_os_system (ev : event) : bool :=
  match ev with
  | OsSystem _ => true
  | _ => false
  end.

(** Entry into one of the two conversion functions. *)
Definition is_conversion_entry (ev : event) : bool :=
  match ev with
  | Enter f_download_and_convert_yolov8 => true
  | Enter f_convert_different_sizes => true
  | _ => false
  end.

Definition menu_prompt : string := LF ++ "Enter your choice (1-3): ".

Definition is_menu_prompt (ev : event) : bool :=
  match ev with
  | Prompt p => String.eqb p menu_prompt
  | _ => false
  end.

Definition is_install_entry (ev : event) : bool :=
  match ev with
  | Enter f_install_requirements => true
  | _ => false
  end.

Definition pip_command : string := "pip install ultralytics coremltools".

Definition is_pip (ev : event) : bool :=
  match ev with
  | OsSystem cmd => String.eqb cmd pip_command
  | _ => false
  end.

(** A console line that reports an error: its text starts with the cross
    mark the script puts in front of every error message. *)
Definition is_error_line (ev : event) : bool :=
  match ev with
  | Print (Lit s :: _) => prefix "❌" s
  | _ => false
  end.

Definition count (p : event -> bool) (t : list event) : nat :=
  List.length (filter p t).

(** The keyword configuration the specification names. *)
Definition coreml_kwargs : export_kwargs :=
  mkKwargs "coreml" 640 true true true true "cpu".

Definition export_kwargs_fixed (ev : event) : Prop :=
  match ev with
  | YoloExport _ kw => kw = coreml_kwargs
  | _ => True
  end.

(** The five size letters of the prompt. *)
Definition size_letters : list string := ["n"; "s"; "m"; "l"; "x"].

(** Names derived from the answer to the size prompt. *)
Definition model_name_of (answer : string) : string :=
  "yolov8" ++ lower answer.

Definition weights_of (answer : string) : string :=
  model_name_of answer ++ ".pt".

Definition package_path_of (answer : string) : string :=
  model_name_of answer ++ ".mlpackage".

(** [main] gets as far as reading the menu choice. *)
Definition reads_menu_choice (r : Run pyval) : Prop :=
  In (Prompt menu_prompt) (output r).

(** Every path has after the run what it had before. *)
Definition leaves_files_untouched (w : World) (r : Run pyval) : Prop :=
  forall p, files (final r) p = files w p.

(** The importing of ultralytics at the start of [main] raises
    [ImportError]. *)
Definition import_raises_ImportError (env : Env) (w : World) : bool :=
  match ext_import_ultralytics env (files w) with
  | Done => false
  | Failed e => is_ImportError (exn_cls e)
  end.

(** Lines of the console the statements name. *)
Definition invalid_choice_line : event := Print [Lit "❌ Invalid choice"].

Definition not_found_line : event :=
  Print [Lit "❌ Model file not found after conversion"].

Definition goodbye_line : event := Print [Lit "👋 Goodbye!"].

Definition already_installed_line : event :=
  Print [Lit "✅ Ultralytics already installed"].

(** Last line of the result report of [main], on success and on failure. *)
Definition report_success_line : event :=
  Print [Lit "Your BatSight app is ready to use YOLOv8!"].

Definition report_failure_line : event :=
  Print [Lit (LF ++ "❌ Conversion failed. Check the error messages above.")].

(** The invalid-choice line, as a test on events. *)
Definition is_invalid_choice (ev : event) : bool :=
  match ev with
  | Print [Lit s] => String.eqb s "❌ Invalid choice"
  | _ => false
  end.

(** The answer is turned down: the invalid-choice line is printed, [False]
    is returned, and no model is loaded or exported. *)
Definition rejected (r : Run pyval) : Prop :=
  result r = Normal PyFalse /\
  In invalid_choice_line (output r) /\
  count is_load (output r) = 0 /\
  count is_export (output r) = 0.

(** The import of the library, the loading of the weights or the export
    call of [download_and_convert_yolov8] raises [e]. *)
Definition library_raises (env : Env) (w : World) (e : exn) : Prop :=
  ext_from_ultralytics_import_YOLO env (files w) = Failed e \/
  (ext_from_ultralytics_import_YOLO env (files w) = Done /\
   exists fs1, ext_YOLO env "yolov8n.pt" (files w) = (Failed e, fs1)) \/
  (ext_from_ultralytics_import_YOLO env (files w) = Done /\
   exists fs1 fs2,
     ext_YOLO env "yolov8n.pt" (files w) = (Done, fs1) /\
     ext_export env (mkModel "yolov8n.pt") coreml_kwargs fs1 = (Failed e, fs2)).




(** ** Concrete worlds *)

Module Fixtures.

Definition no_files : Files := fun _ => None.

Definition write (p : string) (n : Z) (fs : Files) : Files :=
  fun q => if String.eqb q p then Some n else fs q.

(** Name of the package the exporter writes for a weights file [x.pt]. *)
Definition package_of (wt : string) : string :=
  substring 0 (String.length wt - 3) wt ++ ".mlpackage".

(** Everything is installed and works: the constructor downloads the
    weights, the exporter writes the package. *)
Definition env_ok : Env :=
  {| ext_import_ultralytics := fun _ => Done;
     ext_from_ultralytics_import_YOLO := fun _ => Done;
     ext_os_system := fun _ fs => fs;
     ext_YOLO := fun wt fs => (Done, write wt 6534387 fs);
     ext_export := fun m _ fs =>
       (Done, write (package_of (weights m)) 4096 fs) |}.

(** The exporter returns normally but leaves no package behind. *)
Definition env_no_package : Env :=
  {| ext_import_ultralytics := fun _ => Done;
     ext_from_ultralytics_import_YOLO := fun _ => Done;
     ext_os_system := fun _ fs => fs;
     ext_YOLO := fun wt fs => (Done, write wt 6534387 fs);
     ext_export := fun _ _ fs => (Done, fs) |}.

(** ultralytics is not installed; [pip] installs it. *)
Definition env_not_installed : Env :=
  {| ext_import_ultralytics := fun fs =>
       match fs "site-packages/ultralytics" with
       | Some _ => Done
       | None => Failed (mkExn ImportError "No module named 'ultralytics'")
       end;
     ext_from_ultralytics_import_YOLO := fun fs =>
       match fs "site-packages/ultralytics" with
       | Some _ => Done
       | None => Failed (mkExn ImportError "No module named 'ultralytics'")
       end;
     ext_os_system := fun _ fs => write "site-packages/ultralytics" 4096 fs;
     ext_YOLO := fun wt fs => (Done, write wt 6534387 fs);
     ext_export := fun m _ fs =>
       (Done, write (package_of (weights m)) 4096 fs) |}.

(** The exporter fails with an ordinary exception. *)
Definition env_export_fails : Env :=
  {| ext_import_ultralytics := fun _ => Done;
     ext_from_ultralytics_import_YOLO := fun _ => Done;
     ext_os_system := fun _ fs => fs;
     ext_YOLO := fun wt fs => (Done, write wt 6534387 fs);
     ext_export := fun _ _ fs =>
       (Failed (mkExn OtherException "coremltools export failure"), fs) |}.

(** The user interrupts the export: not an [Exception]. *)
Definition env_interrupted : Env :=
  {| ext_import_ultralytics := fun _ => Done;
     ext_from_ultralytics_import_YOLO := fun _ => Done;
     ext_os_system := fun _ fs => fs;
     ext_YOLO := fun wt fs => (Done, write wt 6534387 fs);
     ext_export := fun _ _ fs =>
       (Failed (mkExn KeyboardInterrupt ""), fs) |}.

Definition typed (lines : list string) : World := mkWorld lines no_files.

End Fixtures.

Import Fixtures.

(** ** Further observations *)

(** The files [main] finds when it shows its menu: what [pip] left, when
    the import raised [ImportError], and the initial files otherwise. *)
Definition files_at_menu (env : Env) (w : World) : Files :=
  if import_raises_ImportError env w
  then ext_os_system env pip_command (files w)
  else files w.

Definition is_success_report (ev : event) : bool :=
  match ev with
  | Print [Lit s] => String.eqb s "Your BatSight app is ready to use YOLOv8!"
  | _ => false
  end.

Definition is_failure_report (ev : event) : bool :=
  match ev with
  | Print [Lit s] =>
      String.eqb s (LF ++ "❌ Conversion failed. Check the error messages above.")
  | _ => false
  end.

Definition is_import_attempt (ev : event) : bool :=
  match ev with
  | FromUltralyticsImportYOLO => true
  | _ => false
  end.

Definition is_print (ev : event) : bool :=
  match ev with
  | Print _ => true
  | _ => false
  end.

Definition is_pip_hint (ev : event) : bool :=
  match ev with
  | Print [Lit s] =>
      String.eqb s "Please run: pip install ultralytics coremltools"
  | _ => false
  end.

Definition is_path_exists (ev : event) : bool :=
  match ev with
  | PathExists _ => true
  | _ => false
  end.

(** The three choices the menu of [main] knows. *)
Definition menu_choices : list string := ["1"; "2"; "3"].

(** The answers to the size prompt, spelled out. *)
Definition accepted_answers : list string :=
  ["n"; "N"; "s"; "S"; "m"; "M"; "l"; "L"; "x"; "X"].

(** The hint printed with an import error. *)
Definition pip_hint_line : event :=
  Print [Lit "Please run: pip install ultralytics coremltools"].

Definition import_error_line (e : exn) : event :=
  Print [Lit "❌ Import error: "; Lit (exn_msg e)].

Definition conversion_error_line (e : exn) : event :=
  Print [Lit "❌ Conversion error: "; Lit (exn_msg e)].

Definition converting_error_line (answer : string) (e : exn) : event :=
  Print [Lit ("❌ Error converting " ++ model_name_of answer ++ ": ");
         Lit (exn_msg e)].

Definition install_success_line : event :=
  Print [Lit "✅ Requirements installed successfully"].

(** The import of the library, the loading of the weights or the export
    call of [convert_different_sizes] on [answer] raises [e]. *)
Definition library_raises_for (env : Env) (w : World) (answer : string)
    (e : exn) : Prop :=
  ext_from_ultralytics_import_YOLO env (files w) = Failed e \/
  (ext_from_ultralytics_import_YOLO env (files w) = Done /\
   exists fs1, ext_YOLO env (weights_of answer) (files w) = (Failed e, fs1)) \/
  (ext_from_ultralytics_import_YOLO env (files w) = Done /\
   exists fs1 fs2,
     ext_YOLO env (weights_of answer) (files w) = (Done, fs1) /\
     ext_export env (mkModel (weights_of answer)) coreml_kwargs fs1
       = (Failed e, fs2)).

(** No oracle of the world changes the files. *)
Definition read_only (env : Env) : Prop :=
  (forall cmd fs, ext_os_system env cmd fs = fs) /\
  (forall wt fs, snd (ext_YOLO env wt fs) = fs) /\
  (forall m kw fs, snd (ext_export env m kw fs) = fs).

(** A package of the table of model sizes is among the files. *)
Definition has_package (fs : Files) : Prop :=
  exists name, In name (map fst models) /\ fs (name ++ ".mlpackage") <> None.

(** A call into code outside the script -- an import, a shell command,
    the model constructor, the exporter: the calls that can write to the
    filesystem. *)
Definition is_outside_call (ev : event) : bool :=
  match ev with
  | ImportUltralytics | FromUltralyticsImportYOLO => true
  | OsSystem _ | YoloLoad _ | YoloExport _ _ => true
  | _ => false
  end.

(** Whatever the import, the model constructor and the exporter of a
    conversion raise is of class [Exception]. *)
Definition raises_only_Exceptions (env : Env) : Prop :=
  (forall fs e,
     ext_from_ultralytics_import_YOLO env fs = Failed e ->
     is_Exception (exn_cls e) = true) /\
  (forall wt fs e fs',
     ext_YOLO env wt fs = (Failed e, fs') ->
     is_Exception (exn_cls e) = true) /\
  (forall m kw fs e fs',
     ext_export env m kw fs = (Failed e, fs') ->
     is_Exception (exn_cls e) = true).

Module MoreFixtures.

(** A world in which nothing writes. *)
Definition env_read_only : Env :=
  {| ext_import_ultralytics := fun _ => Done;
     ext_from_ultralytics_import_YOLO := fun _ => Done;
     ext_os_system := fun _ fs => fs;
     ext_YOLO := fun _ fs => (Done, fs);
     ext_export := fun _ _ fs => (Done, fs) |}.

(** The package is installed but breaks while it is imported. *)
Definition env_import_broken : Env :=
  {| ext_import_ultralytics := fun _ =>
       Failed (mkExn OtherException "libGL.so.1: cannot open shared object file");
     ext_from_ultralytics_import_YOLO := fun _ =>
       Failed (mkExn OtherException "libGL.so.1: cannot open shared object file");
     ext_os_system := fun _ fs => fs;
     ext_YOLO := fun _ fs => (Done, fs);
     ext_export := fun _ _ fs => (Done, fs) |}.

(** The package is missing and [pip] cannot install it. *)
Definition env_pip_fails : Env :=
  {| ext_import_ultralytics := fun _ =>
       Failed (mkExn ImportError "No module named 'ultralytics'");
     ext_from_ultralytics_import_YOLO := fun _ =>
       Failed (mkExn ImportError "No module named 'ultralytics'");
     ext_os_system := fun _ fs => fs;
     ext_YOLO := fun _ fs => (Done, fs);
     ext_export := fun _ _ fs => (Done, fs) |}.

(** The weights cannot be downloaded. *)
Definition env_load_fails : Env :=
  {| ext_import_ultralytics := fun _ => Done;
     ext_from_ultralytics_import_YOLO := fun _ => Done;
     ext_os_system := fun _ fs => fs;
     ext_YOLO := fun _ fs =>
       (Failed (mkExn OtherException "Download failure"), fs);
     ext_export := fun _ _ fs => (Done, fs) |}.

End MoreFixtures.

Import MoreFixtures.

(** ** Sanity checks of the embedding on concrete runs *)

Example download_ok_run :
  result (download_and_convert_yolov8 env_ok (typed [])) = Normal PyTrue.
Proof. reflexivity. Qed.

Example main_choice_1_run :
  result (main env_ok (typed ["1"])) = Normal PyNone /\
  last (output (main env_ok (typed ["1"]))) (Enter f_main) = report_success_line.
Proof. split; reflexivity. Qed.

Example main_no_input_run :
  result (main env_ok (typed [])) =
  Raising (mkExn EOFError "EOF when reading a line").
Proof. reflexivity. Qed.

Example interrupt_propagates :
  result (download_and_convert_yolov8 env_interrupted (typed [])) =
  Raising (mkExn KeyboardInterrupt "").
Proof. reflexivity. Qed.

Example lower_N : lower "N" = "n" /\ lower "x" = "x" /\ lower "Yolo8!" = "yolo8!".
Proof. repeat split. Qed.

Example str_mul_40 :
  str_mul "=" 40 = "========================================".
Proof. reflexivity. Qed.

(** ** Proof tools *)

(** Unfolds a function of the script and the monad down to the oracles,
    leaving string operations and the observers of the statements alone. *)
Ltac run_script :=
  cbv [main convert_different_sizes download_and_convert_yolov8
       install_requirements def try_ bind ret skip return_ raise emit for_
       print input path_exists path_stat_st_size os_system
       import_ultralytics from_ultralytics_import_YOLO YOLO export lift_ext
       select_handler clause_matches models app
       result output final stdin files].

(** [main] alone: the two conversion functions stay folded. *)
Ltac run_main :=
  cbv [main install_requirements def try_ bind ret skip return_ raise emit
       print input os_system import_ultralytics lift_ext
       select_handler clause_matches app
       result output final stdin files].

(** Case analysis on the innermost thing the run is waiting for; a test
    between two literals is decided on the spot. *)
Ltac case_scrutinee :=
  match goal with
  | |- context [match ?x with _ => _ end] =>
      lazymatch x with
      | context [match _ with _ => _ end] => fail
      | String.eqb ?a ?b =>
          let v := eval cbv in x in
          lazymatch v with
          | true => change x with true
          | false => change x with false
          | _ => destruct x eqn:?
          end
      | _ => destruct x eqn:?
      end
  end.

Ltac reduce_run := cbv beta iota zeta.

Ltac all_cases := repeat (reduce_run; case_scrutinee); reduce_run.

(** Projections of the records a proof has opened. *)
Ltac open_hyps :=
  cbv [stdin files coreml_kwargs size_letters] in *.

Lemma str_in_In (x : string) (l : list string) :
  str_in x l = true <-> In x l.
Proof.
  unfold str_in. rewrite existsb_exists. split.
  - intros [y [Hy E]]. apply String.eqb_eq in E. now subst.
  - intros H. exists x. split; [assumption | apply String.eqb_refl].
Qed.

Lemma str_in_not_In (x : string) (l : list string) :
  str_in x l = false <-> ~ In x l.
Proof.
  rewrite <- str_in_In. destruct (str_in x l); split; congruence.
Qed.

Lemma lower_ascii_idempotent (c : ascii) :
  lower_ascii (lower_ascii c) = lower_ascii c.
Proof.
  destruct c as [[] [] [] [] [] [] [] []]; reflexivity.
Qed.

Lemma lower_idempotent (s : string) : lower (lower s) = lower s.
Proof.
  induction s as [| c s IH]; cbn.
  - reflexivity.
  - now rewrite lower_ascii_idempotent, IH.
Qed.

Lemma count_cons (p : event -> bool) (a : event) (l : list event) :
  count p (a :: l) = (if p a then 1 else 0) + count p l.
Proof. unfold count. cbn. now destruct (p a). Qed.

Lemma In_iff_count (p : event -> bool) (x : event) (l : list event) :
  (forall y, p y = true <-> y = x) ->
  (In x l <-> count p l <> 0).
Proof.
  intros Hp. induction l as [| a l IH].
  - cbn. tauto.
  - rewrite count_cons. cbn [In]. destruct (p a) eqn:Ha.
    + apply Hp in Ha. subst a. split; [discriminate | tauto].
    + cbn [Nat.add]. split.
      * intros [-> | H]; [| now apply IH].
        assert (p x = true) by now apply Hp. congruence.
      * intros H. right. now apply IH.
Qed.


(** ** The two conversion functions, one at a time *)

Ltac count_leaf := repeat split; first [reflexivity | cbv; lia].

(** A call never completes as a pending [return]. *)
Lemma def_not_returning (f : func) (body : M unit) (w : World) (v : pyval) :
  result (def f body w) <> Returning v.
Proof.
  unfold def. destruct (body w) as [[a | v' | e] o w1]; discriminate.
Qed.

Lemma download_not_returning (env : Env) (w : World) (v : pyval) :
  result (download_and_convert_yolov8 env w) <> Returning v.
Proof. apply def_not_returning. Qed.

Lemma convert_not_returning (env : Env) (w : World) (v : pyval) :
  result (convert_different_sizes env w) <> Returning v.
Proof. apply def_not_returning. Qed.

(** How often each kind of event occurs in a run of
    [download_and_convert_yolov8]. *)
Lemma download_counts (env : Env) (w : World) :
  let r := download_and_convert_yolov8 env w in
  count is_export (output r) <= 1 /\
  count is_load (output r) <= 1 /\
  count is_conversion_entry (output r) = 1 /\
  count is_os_system (output r) = 0 /\
  count is_install_entry (output r) = 0 /\
  count is_pip (output r) = 0 /\
  count is_menu_prompt (output r) = 0.
Proof.
  destruct w as [inp fs]. run_script. all_cases; count_leaf.
Qed.

Lemma convert_counts (env : Env) (w : World) :
  let r := convert_different_sizes env w in
  count is_export (output r) <= 1 /\
  count is_load (output r) <= 1 /\
  count is_conversion_entry (output r) = 1 /\
  count is_os_system (output r) = 0 /\
  count is_install_entry (output r) = 0 /\
  count is_pip (output r) = 0 /\
  count is_menu_prompt (output r) = 0.
Proof.
  destruct w as [inp fs]. run_script. all_cases; count_leaf.
Qed.

Lemma download_export_kwargs (env : Env) (w : World) :
  Forall export_kwargs_fixed (output (download_and_convert_yolov8 env w)).
Proof.
  destruct w as [inp fs]. run_script. all_cases; repeat constructor.
Qed.

Lemma convert_export_kwargs (env : Env) (w : World) :
  Forall export_kwargs_fixed (output (convert_different_sizes env w)).
Proof.
  destruct w as [inp fs]. run_script. all_cases; repeat constructor.
Qed.

(** All the ways [download_and_convert_yolov8] ends: [True], or [False]
    after an error line, or an exception that is not an [Exception]. *)
Lemma download_endings (env : Env) (w : World) :
  let r := download_and_convert_yolov8 env w in
  result r = Normal PyTrue \/
  (result r = Normal PyFalse /\ existsb is_error_line (output r) = true) \/
  (exists e, result r = Raising e /\ is_Exception (exn_cls e) = false).
Proof.
  destruct w as [inp fs]. run_script. all_cases;
    first [ left; reflexivity
          | right; left; split; reflexivity
          | right; right; eexists; split; [reflexivity | assumption] ].
Qed.

(** When the exporter returns and leaves no package,
    [convert_different_sizes] runs off the end of its body: it returns
    [None] and no error line is printed. *)
Lemma convert_absent_package (env : Env) (w : World) (answer : string)
    (rest : list string) (fs1 fs2 : Files) :
  stdin w = answer :: rest ->
  In (lower answer) size_letters ->
  ext_from_ultralytics_import_YOLO env (files w) = Done ->
  ext_YOLO env (weights_of answer) (files w) = (Done, fs1) ->
  ext_export env (mkModel (weights_of answer)) coreml_kwargs fs1 = (Done, fs2) ->
  fs2 (package_path_of answer) = None ->
  let r := convert_different_sizes env w in
  result r = Normal PyNone /\ existsb is_error_line (output r) = false.
Proof.
  intros Hin Hc Hi Hl He Hf.
  apply str_in_In in Hc. destruct w as [inp fs].
  cbv [weights_of package_path_of model_name_of] in *. open_hyps. subst.
  run_script. rewrite Hc. reduce_run. rewrite Hi.
  reduce_run. rewrite Hl. reduce_run. rewrite He.
  reduce_run. rewrite Hf. split; reflexivity.
Qed.

(** ** [main], over the two conversion functions *)


(** Brings in what is known of the run of a conversion function that a
    case analysis of [main] has named. *)
Ltac recall_run D C :=
  repeat match goal with
  | H : download_and_convert_yolov8 ?e ?w = _ |- _ =>
      let F := fresh "Hrun" in
      pose proof (D e w) as F; cbv zeta in F; rewrite H in F;
      cbv [output result final] in F; clear H
  | H : convert_different_sizes ?e ?w = _ |- _ =>
      let F := fresh "Hrun" in
      pose proof (C e w) as F; cbv zeta in F; rewrite H in F;
      cbv [output result final] in F; clear H
  end.

(** Closes the cases in which a call would have ended as a pending
    [return]. *)
Ltac no_returning :=
  try match goal with
  | H : download_and_convert_yolov8 ?e ?w = mkRun (Returning ?v) _ _ |- _ =>
      exfalso; apply (download_not_returning e w v); rewrite H; reflexivity
  | H : convert_different_sizes ?e ?w = mkRun (Returning ?v) _ _ |- _ =>
      exfalso; apply (convert_not_returning e w v); rewrite H; reflexivity
  end.

Ltac split_counts :=
  unfold count in *; simpl; rewrite ?filter_app, ?length_app; simpl.

Ltac find_in := repeat first [left; reflexivity | right].



Lemma main_counts (env : Env) (w : World) :
  let r := main env w in
  let n := if import_raises_ImportError env w then 1 else 0 in
  count is_export (output r) <= 1 /\
  count is_load (output r) <= 1 /\
  count is_conversion_entry (output r) <= 1 /\
  count is_menu_prompt (output r) <= 1 /\
  count is_install_entry (output r) = n /\
  count is_pip (output r) = n /\
  count is_os_system (output r) = n.
Proof.
  destruct w as [inp fs]. unfold import_raises_ImportError.
  run_main. all_cases;
    recall_run download_counts convert_counts; split_counts; lia.
Qed.

Lemma main_export_kwargs (env : Env) (w : World) :
  Forall export_kwargs_fixed (output (main env w)).
Proof.
  destruct w as [inp fs]. run_main. all_cases;
    recall_run download_export_kwargs convert_export_kwargs;
    repeat first [assumption | apply Forall_app; split | constructor].
Qed.


Lemma main_already_installed (env : Env) (w : World) :
  ext_import_ultralytics env (files w) = Done ->
  In already_installed_line (output (main env w)).
Proof.
  destruct w as [inp fs]. open_hyps. intros Hi. run_main. rewrite Hi.
  all_cases; find_in.
Qed.

Lemma is_install_entry_spec (y : event) :
  is_install_entry y = true <-> y = Enter f_install_requirements.
Proof.
  destruct y as [[] | | | | | | | | |]; cbn; split; congruence.
Qed.

Lemma is_pip_spec (y : event) :
  is_pip y = true <-> y = OsSystem pip_command.
Proof.
  destruct y; cbn; split; try congruence.
  - intros H. apply String.eqb_eq in H. now subst.
  - intros H. injection H as ->. reflexivity.
Qed.

Lemma import_raises_ImportError_spec (env : Env) (w : World) :
  import_raises_ImportError env w = true <->
  exists e, ext_import_ultralytics env (files w) = Failed e /\
            is_ImportError (exn_cls e) = true.
Proof.
  unfold import_raises_ImportError.
  destruct (ext_import_ultralytics env (files w)) as [| e].
  - split; [discriminate |]. intros (e & He & _). discriminate He.
  - split.
    + intros H. exists e. split; [reflexivity | assumption].
    + intros (e' & He & H). injection He as <-. assumption.
Qed.

(** ** The claims *)

(** C1 (defect in the code).  Every failure of a conversion is to end in
    an error line on the console and the value [False].  The run below
    is a failure of [convert_different_sizes] that does neither: the
    exporter returns, the package is not there, and the function runs off
    the end of its body -- it returns [None] and prints nothing, and
    [main] then refers the user to error messages that were never
    printed.  On the same world [download_and_convert_yolov8] takes its
    [else] branch, prints the not-found line and returns [False]. *)
Theorem convert_different_sizes_absent_package_returns_None :
  let r := convert_different_sizes env_no_package (typed ["n"]) in
  let d := download_and_convert_yolov8 env_no_package (typed []) in
  let m := main env_no_package (typed ["2"; "n"]) in
  files (final r) "yolov8n.mlpackage" = None /\
  result r = Normal PyNone /\
  existsb is_error_line (output r) = false /\
  last (output r) (Enter f_main) = PathExists "yolov8n.mlpackage" /\
  result d = Normal PyFalse /\
  last (output d) (Enter f_main) = not_found_line /\
  last (output m) (Enter f_main) = report_failure_line /\
  existsb is_error_line (output m) = false.
Proof.
  cbv zeta. repeat split; reflexivity.
Qed.

(** C2, as stated, fails: with ultralytics not installed, [main] run on
    the choice 3 reads the choice, says goodbye and returns [None], but
    before the menu it has run [pip install], which wrote to the files. *)
Lemma main_choice_3_can_run_pip :
  let w := typed ["3"] in
  let r := main env_not_installed w in
  reads_menu_choice r /\
  last (output r) (Enter f_main) = goodbye_line /\
  result r = Normal PyNone /\
  In (OsSystem pip_command) (output r) /\
  ~ leaves_files_untouched w r.
Proof.
  cbv zeta. repeat split; try reflexivity.
  - unfold reads_menu_choice. cbn. tauto.
  - cbn. tauto.
  - intros H. specialize (H "site-packages/ultralytics"). discriminate H.
Qed.

(** C2 (amended).  When [main] reads the menu choice and it is 3, it
    prints the goodbye line and returns [None]: no conversion function is
    entered, no model is loaded and nothing is exported.  The only calls
    into code outside the script are the import of ultralytics and, when
    that import raised [ImportError], the [pip install] of
    [install_requirements]; both come before the menu prompt, and after
    the prompt nothing happens but the goodbye line.  One line of input
    has been read. *)
Theorem main_choice_3 (env : Env) (w : World) (rest : list string) :
  stdin w = "3" :: rest ->
  reads_menu_choice (main env w) ->
  let r := main env w in
  last (output r) (Enter f_main) = goodbye_line /\
  result r = Normal PyNone /\
  count is_conversion_entry (output r) = 0 /\
  count is_load (output r) = 0 /\
  count is_export (output r) = 0 /\
  (exists before,
     output r = (before ++ [Prompt menu_prompt; goodbye_line])%list /\
     filter is_outside_call before =
       ImportUltralytics ::
       (if import_raises_ImportError env w
        then [OsSystem pip_command] else [])) /\
  stdin (final r) = rest.
Proof.
  intros Hin. destruct w as [inp fs]. open_hyps. subst.
  unfold reads_menu_choice, import_raises_ImportError. run_main.
  all_cases; intros Hm;
    try (exfalso; revert Hm; simpl; intuition discriminate);
    do 5 (split; [reflexivity |]); (split; [| reflexivity]).
  all: match goal with
       | |- exists b, ?l = _ /\ _ =>
           exists (firstn (List.length l - 2) l); split; reflexivity
       end.
Qed.

Lemma main_choice_3_witness :
  let r := main env_not_installed (typed ["3"]) in
  last (output r) (Enter f_main) = goodbye_line /\
  result r = Normal PyNone /\
  count is_export (output r) = 0 /\
  exists before,
    output r = (before ++ [Prompt menu_prompt; goodbye_line])%list /\
    filter is_outside_call before =
      [ImportUltralytics; OsSystem pip_command].
Proof.
  cbv zeta.
  assert (Hm : reads_menu_choice (main env_not_installed (typed ["3"]))).
  { unfold reads_menu_choice. cbn. tauto. }
  destruct (main_choice_3 env_not_installed (typed ["3"]) [] eq_refl Hm)
    as (H1 & H2 & _ & _ & H5 & H6 & _).
  split; [exact H1 | split; [exact H2 | split; [exact H5 | exact H6]]].
Defined.

(** C3.  Whatever the world and whatever is typed, every call of
    [export] made by [download_and_convert_yolov8], by
    [convert_different_sizes], and by [main] through them, passes
    format='coreml', imgsz=640, simplify=True, nms=True, int8=True,
    half=True, device='cpu'.  And the call is made: as soon as the
    import and the loading of the weights return, the one export of the
    run is that of the model loaded -- [yolov8n.pt], or the weights of
    the size that was answered -- with exactly this record; only the
    weights vary. *)
Theorem export_kwargs_are_fixed (env : Env) (w : World) :
  (Forall export_kwargs_fixed (output (download_and_convert_yolov8 env w)) /\
   Forall export_kwargs_fixed (output (convert_different_sizes env w)) /\
   Forall export_kwargs_fixed (output (main env w))) /\
  (forall fs1,
     ext_from_ultralytics_import_YOLO env (files w) = Done ->
     ext_YOLO env "yolov8n.pt" (files w) = (Done, fs1) ->
     filter is_export (output (download_and_convert_yolov8 env w)) =
       [YoloExport (mkModel "yolov8n.pt") coreml_kwargs]) /\
  (forall answer rest fs1,
     stdin w = answer :: rest ->
     In (lower answer) size_letters ->
     ext_from_ultralytics_import_YOLO env (files w) = Done ->
     ext_YOLO env (weights_of answer) (files w) = (Done, fs1) ->
     filter is_export (output (convert_different_sizes env w)) =
       [YoloExport (mkModel (weights_of answer)) coreml_kwargs]).
Proof.
  split; [| split].
  - split; [| split].
    + apply download_export_kwargs.
    + apply convert_export_kwargs.
    + apply main_export_kwargs.
  - intros fs1 Hi Hl. destruct w as [inp fs]. open_hyps.
    run_script. rewrite Hi. reduce_run. rewrite Hl.
    all_cases; reflexivity.
  - intros answer rest fs1 Hin Hc Hi Hl. apply str_in_In in Hc.
    destruct w as [inp fs].
    cbv [weights_of model_name_of] in *. open_hyps. subst.
    run_script. rewrite Hc. reduce_run. rewrite Hi. reduce_run. rewrite Hl.
    all_cases; reflexivity.
Qed.

Lemma export_kwargs_are_fixed_witness :
  filter is_export
    (output (download_and_convert_yolov8 env_ok (typed []))) =
    [YoloExport (mkModel "yolov8n.pt") coreml_kwargs] /\
  filter is_export
    (output (convert_different_sizes env_ok (typed ["X"]))) =
    [YoloExport (mkModel "yolov8x.pt") coreml_kwargs].
Proof.
  split.
  - destruct (export_kwargs_are_fixed env_ok (typed [])) as (_ & H & _).
    exact (H (write "yolov8n.pt" 6534387 no_files) eq_refl eq_refl).
  - destruct (export_kwargs_are_fixed env_ok (typed ["X"])) as (_ & _ & H).
    refine (H "X" [] (write "yolov8x.pt" 6534387 no_files)
              eq_refl _ eq_refl eq_refl).
    simpl. tauto.
Defined.

(** An export does take place, and the weights are what varies. *)
Example export_events :
  filter is_export (output (main env_ok (typed ["1"]))) =
    [YoloExport (mkModel "yolov8n.pt") coreml_kwargs] /\
  filter is_export (output (main env_ok (typed ["2"; "X"]))) =
    [YoloExport (mkModel "yolov8x.pt") coreml_kwargs].
Proof. split; reflexivity. Qed.

(** C4.  When the import, the loading of [yolov8n.pt] and the export all
    return, [download_and_convert_yolov8] returns [True] exactly when
    [yolov8n.mlpackage] exists afterwards; if it does, the absolute path
    and the size are printed; if it does not, the not-found line is
    printed and [False] is returned. *)
Theorem download_result_iff_package_exists (env : Env) (w : World)
    (fs1 fs2 : Files) :
  ext_from_ultralytics_import_YOLO env (files w) = Done ->
  ext_YOLO env "yolov8n.pt" (files w) = (Done, fs1) ->
  ext_export env (mkModel "yolov8n.pt") coreml_kwargs fs1 = (Done, fs2) ->
  let r := download_and_convert_yolov8 env w in
  (result r = Normal PyTrue <-> fs2 "yolov8n.mlpackage" <> None) /\
  (forall n, fs2 "yolov8n.mlpackage" = Some n ->
     result r = Normal PyTrue /\
     In (Print [Lit "📁 Model saved as: "; AbsolutePath "yolov8n.mlpackage"])
        (output r) /\
     In (Print [Lit "📊 Model size: "; MiB_1f n; Lit " MB"]) (output r)) /\
  (fs2 "yolov8n.mlpackage" = None ->
     result r = Normal PyFalse /\ In not_found_line (output r)).
Proof.
  intros Hi Hl He. destruct w as [inp fs]. open_hyps.
  run_script. rewrite Hi. reduce_run. rewrite Hl. reduce_run.
  rewrite He. reduce_run.
  destruct (fs2 "yolov8n.mlpackage") as [n |] eqn:Hf; reduce_run;
    rewrite ?Hf; reduce_run.
  - split; [split; congruence |]. split; [| discriminate].
    intros m Hm. injection Hm as <-. repeat split; find_in.
  - split; [split; congruence |]. split; [discriminate |].
    intros _. split; [reflexivity | find_in].
Qed.

Lemma download_result_iff_package_exists_witness :
  let r := download_and_convert_yolov8 env_ok (typed []) in
  result r = Normal PyTrue /\
  In (Print [Lit "📊 Model size: "; MiB_1f 4096; Lit " MB"]) (output r).
Proof.
  cbv zeta.
  destruct (download_result_iff_package_exists env_ok (typed [])
              (write "yolov8n.pt" 6534387 no_files)
              (write "yolov8n.mlpackage" 4096
                 (write "yolov8n.pt" 6534387 no_files))
              eq_refl eq_refl eq_refl) as (_ & H & _).
  destruct (H 4096%Z eq_refl) as (H1 & _ & H3).
  split; assumption.
Defined.

Lemma is_invalid_choice_spec (y : event) :
  is_invalid_choice y = true <-> y = invalid_choice_line.
Proof.
  unfold invalid_choice_line.
  destruct y as [| t | | | | | | | |]; try (split; discriminate).
  destruct t as [| [s | p | n] [| q t]]; try (split; discriminate).
  cbn [is_invalid_choice]. rewrite String.eqb_eq. split; congruence.
Qed.

(** An answer whose lowercase form is a size letter is not turned down:
    the invalid-choice line is not printed and the import of the library
    is attempted. *)
Lemma convert_accepts (env : Env) (w : World) (answer : string)
    (rest : list string) :
  stdin w = answer :: rest ->
  In (lower answer) size_letters ->
  ~ In invalid_choice_line (output (convert_different_sizes env w)) /\
  In FromUltralyticsImportYOLO (output (convert_different_sizes env w)).
Proof.
  intros Hin Hc. destruct w as [inp fs]. open_hyps. subst.
  apply str_in_In in Hc.
  rewrite (In_iff_count is_invalid_choice _ _ is_invalid_choice_spec).
  run_script. rewrite Hc.
  all_cases; (split; [intros H; apply H; reflexivity | find_in]).
Qed.

(** C5, as stated, fails: the answer [N] is none of the letters n, s, m,
    l, x, and yet it is not turned down; the nano model is converted. *)
Lemma uppercase_answer_is_accepted :
  ~ In "N" size_letters /\
  ~ rejected (convert_different_sizes env_ok (typed ["N"])) /\
  result (convert_different_sizes env_ok (typed ["N"])) = Normal PyTrue /\
  filter is_load (output (convert_different_sizes env_ok (typed ["N"]))) =
    [YoloLoad "yolov8n.pt"].
Proof.
  split; [| split; [| split]].
  - simpl. intuition discriminate.
  - intros (H & _). discriminate H.
  - reflexivity.
  - reflexivity.
Qed.

(** C5 (amended).  [models] is a table of five entries, one for each of
    yolov8n, yolov8s, yolov8m, yolov8l, yolov8x.  An answer is accepted
    exactly when its lowercase form is one of n, s, m, l, x: then the
    invalid-choice line is not printed and the import of the library is
    attempted; every other answer is turned down. *)
Theorem size_choice_validation (env : Env) (w : World) (answer : string)
    (rest : list string) :
  stdin w = answer :: rest ->
  let r := convert_different_sizes env w in
  (List.length models = 5 /\
   map fst models = map (fun c => "yolov8" ++ c) size_letters) /\
  (In (lower answer) size_letters ->
     ~ In invalid_choice_line (output r) /\
     In FromUltralyticsImportYOLO (output r)) /\
  (~ In (lower answer) size_letters -> rejected r).
Proof.
  intros Hin. destruct w as [inp fs]. open_hyps. subst.
  split; [split; reflexivity |]. split.
  - intros Hc.
    exact (convert_accepts env (mkWorld (answer :: rest) fs) answer rest
             eq_refl Hc).
  - intros Hc. apply str_in_not_In in Hc. unfold rejected. run_script.
    rewrite Hc. reduce_run. repeat split. find_in.
Qed.

Lemma size_choice_validation_witness :
  rejected (convert_different_sizes env_ok (typed ["q"])) /\
  In FromUltralyticsImportYOLO
     (output (convert_different_sizes env_ok (typed ["L"]))).
Proof.
  destruct (size_choice_validation env_ok (typed ["q"]) "q" [] eq_refl)
    as (_ & _ & Hq).
  destruct (size_choice_validation env_ok (typed ["L"]) "L" [] eq_refl)
    as (_ & HL & _).
  split.
  - apply Hq. simpl. intuition discriminate.
  - apply HL. simpl. tauto.
Defined.

(** C6.  [main] enters [install_requirements] exactly when the import of
    ultralytics raises [ImportError], and [pip install] is run exactly
    when [install_requirements] is entered; when the import succeeds the
    already-installed line is printed and no command is run. *)
Theorem install_iff_import_error (env : Env) (w : World) :
  let r := main env w in
  (In (Enter f_install_requirements) (output r) <->
   exists e, ext_import_ultralytics env (files w) = Failed e /\
             is_ImportError (exn_cls e) = true) /\
  (In (OsSystem pip_command) (output r) <->
   In (Enter f_install_requirements) (output r)) /\
  (ext_import_ultralytics env (files w) = Done ->
     In already_installed_line (output r) /\
     count is_os_system (output r) = 0).
Proof.
  cbv zeta.
  rewrite (In_iff_count is_pip _ _ is_pip_spec).
  rewrite !(In_iff_count is_install_entry _ _ is_install_entry_spec).
  rewrite <- import_raises_ImportError_spec.
  destruct (main_counts env w) as (_ & _ & _ & _ & Hn & Hp & Hs).
  rewrite Hn, Hp. split; [| split].
  - destruct (import_raises_ImportError env w); split; congruence.
  - tauto.
  - intros Hi. split; [now apply main_already_installed |].
    rewrite Hs. unfold import_raises_ImportError. now rewrite Hi.
Qed.

(** The two sides of C6 on concrete worlds. *)
Example install_runs :
  filter is_os_system (output (main env_not_installed (typed ["1"]))) =
    [OsSystem pip_command] /\
  result (download_and_convert_yolov8 env_not_installed (typed [])) =
    Normal PyFalse /\
  filter is_os_system (output (main env_ok (typed ["1"]))) = [].
Proof. repeat split; reflexivity. Qed.


(** A failed export is followed by the failure report, not by a second
    attempt. *)
Example no_retry_after_failure :
  let r := main env_export_fails (typed ["1"; "1"; "1"]) in
  count is_export (output r) = 1 /\
  last (output r) (Enter f_main) = report_failure_line /\
  stdin (final r) = ["1"; "1"].
Proof. repeat split; reflexivity. Qed.

(** C8.  The answer to the size prompt is lowercased before it is
    checked: for an answer whose lowercase form is one of n, s, m, l, x,
    the run of [convert_different_sizes] is the run on that lowercase
    form -- same result, same events in the same order, same final
    state.  It is an accepted answer and the conversion of the model of
    that letter goes ahead: the import is attempted; when it returns,
    the weights loaded are those of yolov8<letter>; and when the load
    returns, that model is the one exported. *)
Theorem size_choice_case_insensitive (env : Env) (w : World)
    (answer : string) (rest : list string) :
  stdin w = answer :: rest ->
  In (lower answer) size_letters ->
  let r := convert_different_sizes env w in
  r = convert_different_sizes env (mkWorld (lower answer :: rest) (files w)) /\
  ~ In invalid_choice_line (output r) /\
  In FromUltralyticsImportYOLO (output r) /\
  (ext_from_ultralytics_import_YOLO env (files w) = Done ->
     filter is_load (output r) = [YoloLoad (weights_of answer)]) /\
  (forall fs1,
     ext_from_ultralytics_import_YOLO env (files w) = Done ->
     ext_YOLO env (weights_of answer) (files w) = (Done, fs1) ->
     filter is_export (output r) =
       [YoloExport (mkModel (weights_of answer)) coreml_kwargs]).
Proof.
  intros Hin Hc. cbv zeta.
  destruct (convert_accepts env w answer rest Hin Hc) as [Hinv Himp].
  split; [| split; [exact Hinv | split; [exact Himp |]]].
  - destruct w as [inp fs]. open_hyps. subst.
    run_script. rewrite lower_idempotent. reflexivity.
  - apply str_in_In in Hc. destruct w as [inp fs].
    cbv [weights_of model_name_of] in *. open_hyps. subst. split.
    + intros Hi. run_script. rewrite Hc. reduce_run. rewrite Hi.
      all_cases; reflexivity.
    + intros fs1 Hi Hl. run_script. rewrite Hc. reduce_run. rewrite Hi.
      reduce_run. rewrite Hl. all_cases; reflexivity.
Qed.

Lemma size_choice_case_insensitive_witness :
  let r := convert_different_sizes env_ok (typed ["M"; "next"]) in
  r = convert_different_sizes env_ok (typed ["m"; "next"]) /\
  filter is_load (output r) = [YoloLoad "yolov8m.pt"] /\
  filter is_export (output r) =
    [YoloExport (mkModel "yolov8m.pt") coreml_kwargs].
Proof.
  cbv zeta.
  assert (Hc : In (lower "M") size_letters) by (simpl; tauto).
  destruct (size_choice_case_insensitive env_ok (typed ["M"; "next"])
              "M" ["next"] eq_refl Hc) as (H1 & _ & _ & H4 & H5).
  split; [exact H1 | split].
  - exact (H4 eq_refl).
  - exact (H5 (write "yolov8m.pt" 6534387 no_files) eq_refl eq_refl).
Defined.

(** C9.  An exception of class [Exception] ([ImportError] included)
    raised by the import, by the loading of the weights or by the export
    call does not leave [download_and_convert_yolov8]: the function
    prints an error line and returns a value, [False]. *)
Theorem download_catches_exceptions (env : Env) (w : World) (e : exn) :
  library_raises env w e ->
  is_Exception (exn_cls e) = true ->
  let r := download_and_convert_yolov8 env w in
  result r = Normal PyFalse /\
  existsb is_error_line (output r) = true /\
  forall e', result r <> Raising e'.
Proof.
  intros Hr Hex. destruct w as [inp fs]. unfold library_raises in Hr.
  open_hyps.
  destruct Hr as [Hi | [(Hi & fs1 & Hl) | (Hi & fs1 & fs2 & Hl & He)]];
    run_script; rewrite Hi; reduce_run;
    try (rewrite Hl; reduce_run); try (rewrite He; reduce_run);
    destruct (is_ImportError (exn_cls e)); reduce_run; rewrite ?Hex;
    reduce_run; repeat split; discriminate.
Qed.

Lemma download_catches_exceptions_witness :
  result (download_and_convert_yolov8 env_export_fails (typed [])) =
  Normal PyFalse.
Proof.
  refine (proj1 (download_catches_exceptions env_export_fails (typed [])
                   (mkExn OtherException "coremltools export failure") _ _)).
  - right. right. split; [reflexivity |].
    exists (write "yolov8n.pt" 6534387 no_files),
           (write "yolov8n.pt" 6534387 no_files).
    split; reflexivity.
  - reflexivity.
Defined.



(** ** Further properties of the script *)

Lemma is_success_report_spec (y : event) :
  is_success_report y = true <-> y = report_success_line.
Proof.
  unfold report_success_line.
  destruct y as [| t | | | | | | | |]; try (split; discriminate).
  destruct t as [| [s | p | n] [| q t]]; try (split; discriminate).
  cbn [is_success_report]. rewrite String.eqb_eq. split; congruence.
Qed.

Lemma is_failure_report_spec (y : event) :
  is_failure_report y = true <-> y = report_failure_line.
Proof.
  unfold report_failure_line.
  destruct y as [| t | | | | | | | |]; try (split; discriminate).
  destruct t as [| [s | p | n] [| q t]]; try (split; discriminate).
  cbn [is_failure_report]. rewrite String.eqb_eq. split; congruence.
Qed.

(** *** The menu of [main] *)

(** X1.  A choice other than 1, 2 and 3 is turned down: the last thing
    [main] does is print the invalid-choice line; it returns [None], has
    read one line, and has entered no conversion function, loaded no
    model and exported nothing. *)
Theorem main_invalid_choice (env : Env) (w : World) (choice : string)
    (rest : list string) :
  stdin w = choice :: rest ->
  ~ In choice menu_choices ->
  reads_menu_choice (main env w) ->
  let r := main env w in
  last (output r) (Enter f_main) = invalid_choice_line /\
  result r = Normal PyNone /\
  stdin (final r) = rest /\
  count is_conversion_entry (output r) = 0 /\
  count is_load (output r) = 0 /\
  count is_export (output r) = 0.
Proof.
  intros Hin Hc. destruct w as [inp fs]. open_hyps. subst.
  apply str_in_not_In in Hc. unfold menu_choices, str_in in Hc.
  cbn [existsb] in Hc. rewrite !orb_false_r in Hc.
  apply orb_false_elim in Hc as [H1 Hc].
  apply orb_false_elim in Hc as [H2 H3].
  unfold reads_menu_choice. run_main.
  destruct (ext_import_ultralytics env fs) as [| e];
    [| destruct (is_ImportError (exn_cls e)) ]; reduce_run;
    rewrite ?H1, ?H2, ?H3; reduce_run; intros Hm;
    try (exfalso; revert Hm; simpl; intuition discriminate);
    repeat split; reflexivity.
Qed.

Lemma main_invalid_choice_witness :
  let r := main env_ok (typed [" 1"; "n"]) in
  last (output r) (Enter f_main) = invalid_choice_line /\
  stdin (final r) = ["n"].
Proof.
  cbv zeta.
  assert (Hc : ~ In " 1" menu_choices) by (simpl; intuition discriminate).
  assert (Hm : reads_menu_choice (main env_ok (typed [" 1"; "n"]))).
  { unfold reads_menu_choice. simpl. tauto. }
  destruct (main_invalid_choice env_ok (typed [" 1"; "n"]) " 1" ["n"]
              eq_refl Hc Hm) as (H1 & _ & H3 & _).
  split; assumption.
Defined.

(** X2.  At end of input [main] does not return: having shown the menu
    it raises [EOFError], with nothing converted. *)
Theorem main_end_of_input (env : Env) (w : World) :
  stdin w = [] ->
  reads_menu_choice (main env w) ->
  let r := main env w in
  result r = Raising (mkExn EOFError "EOF when reading a line") /\
  last (output r) (Enter f_main) = Prompt menu_prompt /\
  count is_conversion_entry (output r) = 0 /\
  count is_export (output r) = 0.
Proof.
  intros Hin. destruct w as [inp fs]. open_hyps. subst.
  unfold reads_menu_choice. run_main. all_cases; intros Hm;
    try (exfalso; revert Hm; simpl; intuition discriminate);
    repeat split; reflexivity.
Qed.

Lemma main_end_of_input_witness :
  result (main env_ok (typed [])) =
  Raising (mkExn EOFError "EOF when reading a line").
Proof.
  refine (proj1 (main_end_of_input env_ok (typed []) eq_refl _)).
  unfold reads_menu_choice. simpl. tauto.
Defined.

(** X3.  [main] has no result to give: when it returns, it returns
    [None], whether the conversion succeeded or failed. *)
Theorem main_returns_None (env : Env) (w : World) :
  result (main env w) = Normal PyNone \/
  exists e, result (main env w) = Raising e.
Proof.
  destruct w as [inp fs]. run_main. all_cases; no_returning;
    first [left; reflexivity | right; eexists; reflexivity].
Qed.

(** X4.  An exception of the import at the start of [main] that is not
    an [ImportError] ends the script on the spot: it is raised to the
    caller, the import is the last thing that happened, nothing is
    installed, the menu is not shown and no input is read. *)
Theorem main_import_breaks (env : Env) (w : World) (e : exn) :
  ext_import_ultralytics env (files w) = Failed e ->
  is_ImportError (exn_cls e) = false ->
  let r := main env w in
  result r = Raising e /\
  last (output r) (Enter f_main) = ImportUltralytics /\
  count is_os_system (output r) = 0 /\
  count is_menu_prompt (output r) = 0 /\
  stdin (final r) = stdin w.
Proof.
  intros Hi Hc. destruct w as [inp fs]. open_hyps.
  run_main. rewrite Hi. reduce_run. rewrite Hc. reduce_run.
  repeat split; reflexivity.
Qed.

Lemma main_import_breaks_witness :
  result (main env_import_broken (typed ["1"])) =
    Raising (mkExn OtherException "libGL.so.1: cannot open shared object file") /\
  stdin (final (main env_import_broken (typed ["1"]))) = ["1"].
Proof.
  destruct (main_import_breaks env_import_broken (typed ["1"])
              (mkExn OtherException "libGL.so.1: cannot open shared object file")
              eq_refl eq_refl) as (H1 & _ & _ & _ & H5).
  split; assumption.
Defined.

(** Closes a case in which a library call would have raised something
    that is not an [Exception]. *)
Ltac only_Exceptions H1 H2 H3 :=
  exfalso;
  match goal with
  | H : is_Exception (exn_cls (mkExn _ _)) = false |- _ =>
      cbn in H; discriminate H
  | H : ext_from_ultralytics_import_YOLO _ _ = Failed _ |- _ =>
      pose proof (H1 _ _ H)
  | H : ext_YOLO _ _ _ = (Failed _, _) |- _ => pose proof (H2 _ _ _ _ H)
  | H : ext_export _ _ _ _ = (Failed _, _) |- _ =>
      pose proof (H3 _ _ _ _ _ H)
  end; congruence.

Lemma download_returns (env : Env) (w : World) :
  raises_only_Exceptions env ->
  exists v, result (download_and_convert_yolov8 env w) = Normal v.
Proof.
  intros (H1 & H2 & H3). destruct w as [inp fs]. run_script.
  all_cases; first [eexists; reflexivity | only_Exceptions H1 H2 H3].
Qed.

Lemma convert_returns (env : Env) (w : World) :
  stdin w <> [] ->
  raises_only_Exceptions env ->
  exists v, result (convert_different_sizes env w) = Normal v.
Proof.
  intros Hin (H1 & H2 & H3). destruct w as [inp fs]. open_hyps. run_script.
  all_cases;
    first [eexists; reflexivity | congruence | only_Exceptions H1 H2 H3].
Qed.

(** X5.  Failures of the library do not crash [main]: once the menu
    choice has been read (and, for the choice 2, an answer to the size
    prompt is there to be read), if whatever the import, the model
    constructor and the exporter of the conversion raise is of class
    [Exception], then [main] returns, and returns [None]. *)
Theorem main_contains_library_failures (env : Env) (w : World)
    (choice : string) (rest : list string) :
  stdin w = choice :: rest ->
  reads_menu_choice (main env w) ->
  (choice = "2" -> rest <> []) ->
  raises_only_Exceptions env ->
  result (main env w) = Normal PyNone.
Proof.
  intros Hin Hm Hrest Henv. destruct w as [inp fs]. open_hyps. subst.
  revert Hm. unfold reads_menu_choice. run_main.
  all_cases; no_returning; intros Hm;
    try (exfalso; revert Hm; simpl; intuition discriminate); clear Hm;
    try reflexivity; exfalso.
  all: match goal with
       | H : download_and_convert_yolov8 ?en ?wd = _ |- _ =>
           destruct (download_returns en wd Henv) as [v F];
           rewrite H in F; discriminate F
       | H : convert_different_sizes ?en ?wd = _,
         E : String.eqb _ "2" = true |- _ =>
           apply String.eqb_eq in E;
           destruct (convert_returns en wd (Hrest E) Henv) as [v F];
           rewrite H in F; discriminate F
       end.
Qed.

Lemma main_contains_library_failures_witness :
  result (main env_export_fails (typed ["1"])) = Normal PyNone.
Proof.
  refine (main_contains_library_failures env_export_fails (typed ["1"])
            "1" [] eq_refl _ _ _).
  - unfold reads_menu_choice. simpl. tauto.
  - discriminate.
  - repeat split.
    + intros fs e H. discriminate H.
    + intros wt fs e fs' H. discriminate H.
    + intros m kw fs e fs' H. injection H as <- _. reflexivity.
Defined.

(** *** The result report *)

(** Neither conversion function prints a line of the result report. *)
Lemma download_prints_no_report (env : Env) (w : World) :
  let r := download_and_convert_yolov8 env w in
  count is_success_report (output r) = 0 /\
  count is_failure_report (output r) = 0.
Proof.
  destruct w as [inp fs]. run_script. all_cases; split; reflexivity.
Qed.

Lemma convert_prints_no_report (env : Env) (w : World) :
  let r := convert_different_sizes env w in
  count is_success_report (output r) = 0 /\
  count is_failure_report (output r) = 0.
Proof.
  destruct w as [inp fs]. run_script. all_cases; split; reflexivity.
Qed.

(** [download_and_convert_yolov8] does not return [None]. *)
Ltac no_none :=
  try match goal with
  | H : download_and_convert_yolov8 ?e ?w = mkRun (Normal PyNone) _ _ |- _ =>
      exfalso;
      destruct (download_endings e w) as [F | [[F _] | (x & F & _)]];
      rewrite H in F; discriminate F
  end.

Ltac report_leaf :=
  recall_run download_prints_no_report convert_prints_no_report;
  repeat match goal with H : _ /\ _ |- _ => destruct H end;
  unfold count in *; simpl;
  rewrite ?filter_app, ?length_app; simpl;
  repeat match goal with
         | H : Datatypes.length _ = 0 |- _ => rewrite H; clear H
         end;
  simpl; intuition (try discriminate; try congruence).

(** X6.  With the choice 1, [main] runs [download_and_convert_yolov8] on
    the rest of the input and on the files it has at the menu, and
    reports what that call returned: the success report is printed
    exactly when it returned [True], the failure report exactly when it
    returned [False]; an exception it raises is raised by [main], with no
    report. *)
Theorem main_reports_download_result (env : Env) (w : World)
    (rest : list string) :
  stdin w = "1" :: rest ->
  reads_menu_choice (main env w) ->
  let d := download_and_convert_yolov8 env
             (mkWorld rest (files_at_menu env w)) in
  let r := main env w in
  (In report_success_line (output r) <-> result d = Normal PyTrue) /\
  (In report_failure_line (output r) <-> result d = Normal PyFalse) /\
  (forall e, result d = Raising e -> result r = Raising e) /\
  final r = final d.
Proof.
  intros Hin. destruct w as [inp fs]. open_hyps. subst. cbv zeta.
  rewrite (In_iff_count is_success_report _ _ is_success_report_spec).
  rewrite (In_iff_count is_failure_report _ _ is_failure_report_spec).
  unfold reads_menu_choice, files_at_menu, import_raises_ImportError,
    pip_command.
  run_main. cbv [truthy].
  destruct (ext_import_ultralytics env fs) as [| e];
    [| destruct (is_ImportError (exn_cls e)) ];
    all_cases; no_returning; intros Hm;
    try (exfalso; revert Hm; simpl; intuition discriminate);
    clear Hm; no_none; report_leaf.
Qed.

Lemma main_reports_download_result_witness :
  In report_failure_line (output (main env_export_fails (typed ["1"]))) /\
  ~ In report_success_line (output (main env_export_fails (typed ["1"]))).
Proof.
  assert (Hm : reads_menu_choice (main env_export_fails (typed ["1"]))).
  { unfold reads_menu_choice. simpl. tauto. }
  destruct (main_reports_download_result env_export_fails (typed ["1"]) []
              eq_refl Hm) as (H1 & H2 & _).
  split.
  - apply H2. reflexivity.
  - intros H. apply H1 in H. discriminate H.
Defined.

(** X7.  With the choice 2, [main] runs [convert_different_sizes] on the
    rest of the input and reports what it returned: success exactly when
    it returned [True], failure when it returned [False] and also when it
    returned [None]; an exception it raises is raised by [main]. *)
Theorem main_reports_convert_result (env : Env) (w : World)
    (rest : list string) :
  stdin w = "2" :: rest ->
  reads_menu_choice (main env w) ->
  let c := convert_different_sizes env
             (mkWorld rest (files_at_menu env w)) in
  let r := main env w in
  (In report_success_line (output r) <-> result c = Normal PyTrue) /\
  (In report_failure_line (output r) <->
     result c = Normal PyFalse \/ result c = Normal PyNone) /\
  (forall e, result c = Raising e -> result r = Raising e) /\
  final r = final c.
Proof.
  intros Hin. destruct w as [inp fs]. open_hyps. subst. cbv zeta.
  rewrite (In_iff_count is_success_report _ _ is_success_report_spec).
  rewrite (In_iff_count is_failure_report _ _ is_failure_report_spec).
  unfold reads_menu_choice, files_at_menu, import_raises_ImportError,
    pip_command.
  run_main. cbv [truthy].
  destruct (ext_import_ultralytics env fs) as [| e];
    [| destruct (is_ImportError (exn_cls e)) ];
    all_cases; no_returning; intros Hm;
    try (exfalso; revert Hm; simpl; intuition discriminate);
    clear Hm; report_leaf.
Qed.

Lemma main_reports_convert_result_witness :
  In report_failure_line (output (main env_no_package (typed ["2"; "n"]))) /\
  In report_success_line (output (main env_ok (typed ["2"; "n"]))).
Proof.
  assert (Hm : reads_menu_choice (main env_no_package (typed ["2"; "n"]))).
  { unfold reads_menu_choice. simpl. tauto. }
  assert (Hk : reads_menu_choice (main env_ok (typed ["2"; "n"]))).
  { unfold reads_menu_choice. simpl. tauto. }
  destruct (main_reports_convert_result env_no_package (typed ["2"; "n"])
              ["n"] eq_refl Hm) as (_ & H2 & _).
  destruct (main_reports_convert_result env_ok (typed ["2"; "n"])
              ["n"] eq_refl Hk) as (H1 & _).
  split.
  - apply H2. right. reflexivity.
  - apply H1. reflexivity.
Defined.

(** *** What a success means *)

(** X8.  [download_and_convert_yolov8] returns [True] only after one
    load and one export, with [yolov8n.mlpackage] present in the files it
    leaves. *)
Theorem download_True_means_package (env : Env) (w : World) :
  result (download_and_convert_yolov8 env w) = Normal PyTrue ->
  let r := download_and_convert_yolov8 env w in
  files (final r) "yolov8n.mlpackage" <> None /\
  count is_load (output r) = 1 /\
  count is_export (output r) = 1.
Proof.
  destruct w as [inp fs]. run_script. all_cases; intros H;
    try discriminate H; repeat split; try reflexivity; congruence.
Qed.

Lemma download_True_means_package_witness :
  files (final (download_and_convert_yolov8 env_ok (typed [])))
    "yolov8n.mlpackage" <> None.
Proof.
  exact (proj1 (download_True_means_package env_ok (typed []) eq_refl)).
Defined.

(** X9.  [convert_different_sizes] returns [True] only for an accepted
    answer, after one load and one export, with the package of the
    selected size present in the files it leaves. *)
Theorem convert_True_means_package (env : Env) (w : World)
    (answer : string) (rest : list string) :
  stdin w = answer :: rest ->
  result (convert_different_sizes env w) = Normal PyTrue ->
  let r := convert_different_sizes env w in
  In (lower answer) size_letters /\
  files (final r) (package_path_of answer) <> None /\
  count is_load (output r) = 1 /\
  count is_export (output r) = 1.
Proof.
  intros Hin. destruct w as [inp fs]. open_hyps. subst.
  rewrite <- str_in_In.
  cbv [package_path_of model_name_of size_letters].
  run_script. all_cases; intros H;
    try discriminate H; repeat split; try reflexivity; congruence.
Qed.

Lemma convert_True_means_package_witness :
  files (final (convert_different_sizes env_ok (typed ["X"])))
    "yolov8x.mlpackage" <> None.
Proof.
  destruct (convert_True_means_package env_ok (typed ["X"]) "X" []
              eq_refl eq_refl) as (_ & H & _).
  exact H.
Defined.

(** *** End of input and exceptions in [convert_different_sizes] *)

(** X10.  [convert_different_sizes] reads its answer outside the [try]:
    at end of input it raises [EOFError] to its caller, having printed
    the table and the prompt, before any import is attempted. *)
Theorem convert_end_of_input (env : Env) (w : World) :
  stdin w = [] ->
  let r := convert_different_sizes env w in
  result r = Raising (mkExn EOFError "EOF when reading a line") /\
  last (output r) (Enter f_main) =
    Prompt (LF ++ "Which model size would you like to convert? (n/s/m/l/x): ") /\
  count is_import_attempt (output r) = 0 /\
  count is_print (output r) = 1 + List.length models /\
  final r = w.
Proof.
  intros Hin. destruct w as [inp fs]. open_hyps. subst.
  run_script. repeat split; reflexivity.
Qed.

Lemma convert_end_of_input_witness :
  result (convert_different_sizes env_ok (typed [])) =
  Raising (mkExn EOFError "EOF when reading a line").
Proof.
  exact (proj1 (convert_end_of_input env_ok (typed []) eq_refl)).
Defined.

(** X11.  For an accepted answer, an exception of class [Exception]
    raised by the import, by the loading of the weights or by the export
    call does not leave [convert_different_sizes]: the last thing printed
    is the error line with the model name and the message, and [False]
    is returned.  An [ImportError] gets the same line, without the hint
    of [download_and_convert_yolov8]. *)
Theorem convert_catches_exceptions (env : Env) (w : World)
    (answer : string) (rest : list string) (e : exn) :
  stdin w = answer :: rest ->
  In (lower answer) size_letters ->
  library_raises_for env w answer e ->
  is_Exception (exn_cls e) = true ->
  let r := convert_different_sizes env w in
  result r = Normal PyFalse /\
  last (output r) (Enter f_main) = converting_error_line answer e /\
  count is_pip_hint (output r) = 0.
Proof.
  intros Hin Hc Hr Hex. apply str_in_In in Hc.
  destruct w as [inp fs]. unfold library_raises_for in Hr.
  cbv [weights_of model_name_of converting_error_line] in *.
  open_hyps. subst.
  destruct Hr as [Hi | [(Hi & fs1 & Hl) | (Hi & fs1 & fs2 & Hl & He)]];
    run_script; rewrite Hc; reduce_run; rewrite Hi; reduce_run;
    try (rewrite Hl; reduce_run); try (rewrite He; reduce_run);
    rewrite ?Hex; reduce_run; repeat split; reflexivity.
Qed.

Lemma convert_catches_exceptions_witness :
  result (convert_different_sizes env_load_fails (typed ["m"])) =
  Normal PyFalse.
Proof.
  refine (proj1 (convert_catches_exceptions env_load_fails (typed ["m"])
                   "m" [] (mkExn OtherException "Download failure")
                   eq_refl _ _ eq_refl)).
  - simpl. tauto.
  - right. left. split; [reflexivity |]. exists no_files. reflexivity.
Defined.

(** *** The two handlers of [download_and_convert_yolov8] *)

(** X12.  The handler is chosen by the class of the exception, not by
    the call that raised it: an [ImportError] from the import, the load
    or the export is reported as an import error and followed by the
    [pip] hint; every other [Exception] is reported as a conversion
    error, without the hint. *)
Theorem download_handler_by_class (env : Env) (w : World) (e : exn) :
  library_raises env w e ->
  is_Exception (exn_cls e) = true ->
  let r := download_and_convert_yolov8 env w in
  if is_ImportError (exn_cls e)
  then last (output r) (Enter f_main) = pip_hint_line /\
       In (import_error_line e) (output r)
  else last (output r) (Enter f_main) = conversion_error_line e /\
       count is_pip_hint (output r) = 0.
Proof.
  intros Hr Hex. destruct w as [inp fs]. unfold library_raises in Hr.
  cbv [import_error_line conversion_error_line pip_hint_line].
  open_hyps.
  destruct Hr as [Hi | [(Hi & fs1 & Hl) | (Hi & fs1 & fs2 & Hl & He)]];
    run_script; rewrite Hi; reduce_run;
    try (rewrite Hl; reduce_run); try (rewrite He; reduce_run);
    destruct (is_ImportError (exn_cls e)); reduce_run; rewrite ?Hex;
    reduce_run; split; first [reflexivity | find_in].
Qed.

Lemma download_handler_by_class_witness :
  last (output (download_and_convert_yolov8 env_pip_fails (typed [])))
       (Enter f_main) = pip_hint_line /\
  last (output (download_and_convert_yolov8 env_load_fails (typed [])))
       (Enter f_main) =
    conversion_error_line (mkExn OtherException "Download failure").
Proof.
  split.
  - refine (proj1 (download_handler_by_class env_pip_fails (typed [])
                     (mkExn ImportError "No module named 'ultralytics'")
                     _ eq_refl)).
    left. reflexivity.
  - refine (proj1 (download_handler_by_class env_load_fails (typed [])
                     (mkExn OtherException "Download failure") _ eq_refl)).
    right. left. split; [reflexivity |]. exists no_files. reflexivity.
Defined.

(** *** Standard input *)

Lemma download_reads_nothing (env : Env) (w : World) :
  stdin (final (download_and_convert_yolov8 env w)) = stdin w.
Proof.
  destruct w as [inp fs]. run_script. all_cases; reflexivity.
Qed.

Lemma convert_reads_one_line (env : Env) (w : World) :
  stdin (final (convert_different_sizes env w)) = tl (stdin w).
Proof.
  destruct w as [inp fs]. run_script. all_cases; reflexivity.
Qed.

(** X13.  [main] reads one line, the menu choice, and with the choice 2
    one more, the size; whatever the library does, nothing else is taken
    from standard input. *)
Theorem main_input_consumed (env : Env) (w : World) (choice : string)
    (rest : list string) :
  stdin w = choice :: rest ->
  reads_menu_choice (main env w) ->
  stdin (final (main env w)) =
    if String.eqb choice "2" then tl rest else rest.
Proof.
  intros Hin. destruct w as [inp fs]. open_hyps. subst.
  unfold reads_menu_choice.
  destruct (String.eqb choice "1") eqn:E1;
    [ apply String.eqb_eq in E1; subst
    | destruct (String.eqb choice "2") eqn:E2;
      [ apply String.eqb_eq in E2; subst | ] ];
    run_main; all_cases; intros Hm;
    try (exfalso; revert Hm; simpl; intuition discriminate); clear Hm;
    try reflexivity; try congruence.
  all: match goal with
       | H : download_and_convert_yolov8 ?en ?wd = _ |- _ =>
           pose proof (download_reads_nothing en wd) as F; rewrite H in F;
           exact F
       | H : convert_different_sizes ?en ?wd = _ |- _ =>
           pose proof (convert_reads_one_line en wd) as F; rewrite H in F;
           exact F
       end.
Qed.

Lemma main_input_consumed_witness :
  stdin (final (main env_ok (typed ["2"; "s"; "left"; "over"]))) =
    ["left"; "over"] /\
  stdin (final (main env_ok (typed ["1"; "s"; "left"; "over"]))) =
    ["s"; "left"; "over"].
Proof.
  split.
  - refine (main_input_consumed env_ok (typed ["2"; "s"; "left"; "over"])
              "2" ["s"; "left"; "over"] eq_refl _).
    unfold reads_menu_choice. simpl. tauto.
  - refine (main_input_consumed env_ok (typed ["1"; "s"; "left"; "over"])
              "1" ["s"; "left"; "over"] eq_refl _).
    unfold reads_menu_choice. simpl. tauto.
Defined.

(** *** The answers to the size prompt *)

Lemma lower_one_char (c : ascii) :
  str_in (String (lower_ascii c) "") size_letters =
  str_in (String c "") accepted_answers.
Proof.
  destruct c as [[] [] [] [] [] [] [] []]; reflexivity.
Qed.

Lemma str_in_long (c c' : ascii) (s : string) (l : list string) :
  Forall (fun x => String.length x <= 1) l ->
  str_in (String c (String c' s)) l = false.
Proof.
  intros H. unfold str_in. induction H as [| x l Hx _ IH]; [reflexivity |].
  cbn [existsb]. rewrite IH, orb_false_r.
  destruct x as [| a [| b t]]; cbn in Hx |- *.
  - reflexivity.
  - destruct (Ascii.eqb c a); reflexivity.
  - lia.
Qed.

Lemma accepted_test (answer : string) :
  str_in (lower answer) size_letters = str_in answer accepted_answers.
Proof.
  destruct answer as [| c [| c' s]].
  - reflexivity.
  - apply lower_one_char.
  - cbn [lower]. rewrite !str_in_long; [reflexivity | |];
      repeat constructor.
Qed.

Lemma lower_in_size_letters (answer : string) :
  In (lower answer) size_letters <-> In answer accepted_answers.
Proof. rewrite <- !str_in_In, accepted_test. tauto. Qed.

(** X14.  The test on the lowercased answer accepts exactly ten answers:
    the five letters and their capitals.  The answer is not stripped:
    whatever is accepted is one character long, so the empty answer, a
    letter with a blank and a full model name are turned down. *)
Theorem accepted_answers_are_ten (answer : string) :
  (In (lower answer) size_letters <-> In answer accepted_answers) /\
  (str_in (lower answer) size_letters = true -> String.length answer = 1).
Proof.
  split; [apply lower_in_size_letters |].
  rewrite accepted_test. destruct answer as [| c [| c' s]].
  - discriminate.
  - reflexivity.
  - rewrite str_in_long; [discriminate | repeat constructor].
Qed.

Lemma accepted_answers_are_ten_witness :
  String.length "L" = 1.
Proof.
  exact (proj2 (accepted_answers_are_ten "L") eq_refl).
Defined.

(** An answer whose lowercase form is no size letter is turned down. *)
Lemma convert_rejects (env : Env) (w : World) (answer : string)
    (rest : list string) :
  stdin w = answer :: rest ->
  ~ In (lower answer) size_letters ->
  rejected (convert_different_sizes env w).
Proof.
  intros Hin Hc. destruct w as [inp fs]. open_hyps. subst.
  apply str_in_not_In in Hc. unfold rejected. run_script.
  rewrite Hc. reduce_run. repeat split. find_in.
Qed.

(** X15.  [convert_different_sizes] turns an answer down exactly when it
    is not one of those ten. *)
Theorem convert_rejected_iff (env : Env) (w : World) (answer : string)
    (rest : list string) :
  stdin w = answer :: rest ->
  (rejected (convert_different_sizes env w) <->
   ~ In answer accepted_answers).
Proof.
  intros Hin. rewrite <- lower_in_size_letters.
  split.
  - intros (_ & Hinv & _) Hc.
    now apply (proj1 (convert_accepts env w answer rest Hin Hc)).
  - now apply convert_rejects with (rest := rest).
Qed.

Lemma convert_rejected_iff_witness :
  rejected (convert_different_sizes env_ok (typed ["n "])).
Proof.
  apply (proj2 (convert_rejected_iff env_ok (typed ["n "]) "n " [] eq_refl)).
  simpl. intuition discriminate.
Defined.

(** *** The order of the library calls *)

(** X16.  In [download_and_convert_yolov8] each step waits for the one
    before: the weights are loaded exactly when the import returned, the
    export is called exactly when the load returned as well, and the
    package is looked up exactly when the export returned too. *)
Theorem download_steps_in_order (env : Env) (w : World) :
  let r := download_and_convert_yolov8 env w in
  let imported := ext_from_ultralytics_import_YOLO env (files w) = Done in
  let loaded := fst (ext_YOLO env "yolov8n.pt" (files w)) = Done in
  let exported :=
    fst (ext_export env (mkModel "yolov8n.pt") coreml_kwargs
           (snd (ext_YOLO env "yolov8n.pt" (files w)))) = Done in
  count is_import_attempt (output r) = 1 /\
  (count is_load (output r) = 1 <-> imported) /\
  (count is_export (output r) = 1 <-> imported /\ loaded) /\
  (count is_path_exists (output r) = 1 <-> imported /\ loaded /\ exported).
Proof.
  destruct w as [inp fs]. open_hyps. cbv zeta.
  destruct (ext_from_ultralytics_import_YOLO env fs) as [| e] eqn:Hi.
  2: { run_script. rewrite Hi. all_cases;
       repeat split; try reflexivity; try discriminate;
       intros H; try discriminate H; destruct H as [H _]; discriminate H. }
  destruct (ext_YOLO env "yolov8n.pt" fs) as [[| e] fs1] eqn:Hl.
  2: { run_script. rewrite Hi. reduce_run. rewrite Hl. cbn [fst snd].
       all_cases; repeat split; try reflexivity; try discriminate;
       intros H; try discriminate H; destruct H as (_ & H & _) || destruct H as (_ & H);
       discriminate H. }
  cbn [fst snd].
  destruct (ext_export env (mkModel "yolov8n.pt")
              {| format := "coreml"; imgsz := 640; simplify := true;
                 nms := true; int8 := true; half := true; device := "cpu" |}
              fs1) as [[| e] fs2] eqn:He.
  - run_script. rewrite Hi. reduce_run. rewrite Hl. reduce_run. rewrite He.
    cbn [fst snd]. all_cases; repeat split; reflexivity.
  - run_script. rewrite Hi. reduce_run. rewrite Hl. reduce_run. rewrite He.
    cbn [fst snd]. all_cases; repeat split; try reflexivity; try discriminate;
      intros H; try discriminate H; destruct H as (_ & _ & H); discriminate H.
Qed.

(** *** Installation *)

(** X17.  [main] shows its menu exactly when the import at its start
    returned or raised [ImportError]. *)
Theorem main_shows_menu_iff (env : Env) (w : World) :
  reads_menu_choice (main env w) <->
  (forall e, ext_import_ultralytics env (files w) = Failed e ->
             is_ImportError (exn_cls e) = true).
Proof.
  destruct w as [inp fs]. open_hyps. unfold reads_menu_choice. run_main.
  destruct (ext_import_ultralytics env fs) as [| e];
    [| destruct (is_ImportError (exn_cls e)) eqn:Hc ].
  - split; [intros _ e H; discriminate H |]. intros _.
    all_cases; find_in.
  - split; [intros _ e' H; injection H as <-; assumption |]. intros _.
    all_cases; find_in.
  - reduce_run. split.
    + simpl. intuition discriminate.
    + intros H. specialize (H e eq_refl). congruence.
Qed.

(** X18.  The installation is not checked: when the import raised
    [ImportError], [main] prints that the requirements were installed
    and goes on to the menu whatever [pip] did; if the library still
    cannot be imported, the choice 1 ends in the import error, the hint
    and the failure report. *)
Theorem main_after_failed_install (env : Env) (w : World)
    (rest : list string) (e : exn) :
  import_raises_ImportError env w = true ->
  stdin w = "1" :: rest ->
  ext_from_ultralytics_import_YOLO env (files_at_menu env w) = Failed e ->
  is_ImportError (exn_cls e) = true ->
  let r := main env w in
  In install_success_line (output r) /\
  In (import_error_line e) (output r) /\
  In pip_hint_line (output r) /\
  last (output r) (Enter f_main) = report_failure_line /\
  count is_pip (output r) = 1 /\
  result r = Normal PyNone.
Proof.
  intros Hi Hin Hf Hc. destruct w as [inp fs].
  unfold files_at_menu in Hf. rewrite Hi in Hf.
  unfold import_raises_ImportError in Hi.
  cbv [pip_command import_error_line pip_hint_line install_success_line] in *.
  open_hyps. subst.
  destruct (ext_import_ultralytics env fs) as [| e0] eqn:Hi0;
    [discriminate Hi |].
  run_script. rewrite Hi0. reduce_run. rewrite Hi. reduce_run.
  change (String.eqb "1" "1") with true. reduce_run.
  rewrite Hf. reduce_run. rewrite Hc. reduce_run.
  repeat split; first [reflexivity | find_in].
Qed.

Lemma main_after_failed_install_witness :
  let r := main env_pip_fails (typed ["1"]) in
  In install_success_line (output r) /\
  last (output r) (Enter f_main) = report_failure_line.
Proof.
  cbv zeta.
  destruct (main_after_failed_install env_pip_fails (typed ["1"]) []
              (mkExn ImportError "No module named 'ultralytics'")
              eq_refl eq_refl eq_refl eq_refl) as (H1 & _ & _ & H4 & _).
  split; assumption.
Defined.

(** *** What the success report means *)

Lemma model_name_in_table (c : string) :
  In c size_letters -> In ("yolov8" ++ c) (map fst models).
Proof.
  unfold size_letters. simpl.
  intros [<- | [<- | [<- | [<- | [<- | []]]]]]; simpl; tauto.
Qed.

Lemma download_success_facts (env : Env) (w : World) :
  let r := download_and_convert_yolov8 env w in
  count is_success_report (output r) = 0 /\
  (result r = Normal PyTrue ->
   count is_export (output r) = 1 /\ has_package (files (final r))).
Proof.
  destruct w as [inp fs]. run_script. all_cases; (split; [reflexivity |]);
    intros H; try discriminate H; split; [reflexivity |].
  all: exists "yolov8n"; split; [simpl; tauto | simpl; congruence].
Qed.

Lemma convert_success_facts (env : Env) (w : World) :
  let r := convert_different_sizes env w in
  count is_success_report (output r) = 0 /\
  (result r = Normal PyTrue ->
   count is_export (output r) = 1 /\ has_package (files (final r))).
Proof.
  destruct w as [inp fs]. run_script. all_cases; (split; [reflexivity |]);
    intros H; try discriminate H; split; [reflexivity |].
  all: match goal with
       | Hc : str_in (lower ?s) _ = true |- _ =>
           apply str_in_In in Hc; exists ("yolov8" ++ lower s);
           split; [now apply model_name_in_table | congruence]
       end.
Qed.

(** X19.  [main] prints the success report only after exactly one export
    call, and with a package of one of the five model sizes present in
    the files it leaves. *)
Theorem main_success_means_package (env : Env) (w : World) :
  In report_success_line (output (main env w)) ->
  count is_export (output (main env w)) = 1 /\
  has_package (files (final (main env w))).
Proof.
  rewrite (In_iff_count is_success_report _ _ is_success_report_spec).
  destruct w as [inp fs]. run_main. cbv [truthy].
  all_cases; no_returning;
    recall_run download_success_facts convert_success_facts;
    repeat match goal with H : _ /\ _ |- _ => destruct H end;
    unfold count in *; simpl; rewrite ?filter_app, ?length_app; simpl;
    repeat match goal with
           | H : Datatypes.length _ = 0 |- _ => rewrite H; clear H
           end;
    simpl; intros Hs; try (exfalso; apply Hs; reflexivity).
  all: match goal with
       | H : Normal PyTrue = Normal PyTrue -> _ |- _ =>
           destruct (H eq_refl) as [He Hp]; rewrite He; split;
           [reflexivity | exact Hp]
       end.
Qed.

Lemma main_success_means_package_witness :
  has_package (files (final (main env_ok (typed ["2"; "L"])))).
Proof.
  refine (proj2 (main_success_means_package env_ok (typed ["2"; "L"]) _)).
  simpl. tauto.
Defined.

(** *** The missing [else] *)

(** X20.  With the choice 2 and an accepted answer, when import, load
    and export all return and the package is not there afterwards,
    [main] ends with the failure report although no error line was
    printed before it: [convert_different_sizes] has returned [None]
    without a word. *)
Theorem main_failure_without_message (env : Env) (w : World)
    (answer : string) (rest : list string) (fs1 fs2 : Files) :
  stdin w = "2" :: answer :: rest ->
  In (lower answer) size_letters ->
  ext_import_ultralytics env (files w) = Done ->
  ext_from_ultralytics_import_YOLO env (files w) = Done ->
  ext_YOLO env (weights_of answer) (files w) = (Done, fs1) ->
  ext_export env (mkModel (weights_of answer)) coreml_kwargs fs1 = (Done, fs2) ->
  fs2 (package_path_of answer) = None ->
  let r := main env w in
  last (output r) (Enter f_main) = report_failure_line /\
  existsb is_error_line (output r) = false /\
  result r = Normal PyNone.
Proof.
  intros Hin Hc Hm Hi Hl He Hf.
  apply str_in_In in Hc. destruct w as [inp fs].
  cbv [weights_of package_path_of model_name_of] in *. open_hyps. subst.
  run_script. rewrite Hm. reduce_run.
  change (String.eqb "2" "1") with false.
  change (String.eqb "2" "2") with true. reduce_run.
  rewrite Hc. reduce_run. rewrite Hi. reduce_run. rewrite Hl. reduce_run.
  rewrite He. reduce_run. rewrite Hf. repeat split; reflexivity.
Qed.

Lemma main_failure_without_message_witness :
  let r := main env_no_package (typed ["2"; "s"]) in
  last (output r) (Enter f_main) = report_failure_line /\
  existsb is_error_line (output r) = false.
Proof.
  cbv zeta.
  assert (Hc : In (lower "s") size_letters) by (simpl; tauto).
  destruct (main_failure_without_message env_no_package
              (typed ["2"; "s"]) "s" []
              (write "yolov8s.pt" 6534387 no_files)
              (write "yolov8s.pt" 6534387 no_files)
              eq_refl Hc eq_refl eq_refl eq_refl eq_refl eq_refl)
    as (H1 & H2 & _).
  split; assumption.
Defined.
